(** * ml-service-pmnm: the rule-based IoT classifier of [main.py]

    A shallow embedding of [classify_sensor_data] and of the [/predict]
    handler, and the properties the specification states about them.

    Python's [float] is IEEE-754 binary64, which is Rocq's primitive
    [float]; Python's [int] is unbounded and is [Z]; [str] is [string].
    The real number a float stands for is given by [float_value], through
    the decomposition [Prim2SF] of the Standard Library.  The classifier
    takes its temperature as a [float], as its signature declares and as
    [SensorData] hands it over; [PyDyn] embeds it once more on run-time
    values of any type, in the world of the call, for the statements
    about errors and about effects. *)

From Stdlib Require Import ZArith QArith Qpower Floats String List Bool Lia.
Import ListNotations.

Local Open Scope Z_scope.

Set Warnings "-inexact-float".

(* ================================================================= *)
(** * Python floats and the numbers they stand for *)

Module PyFloat.

(** The extended real a float denotes. *)
Inductive xreal : Type :=
| XNaN
| XNegInf
| XPosInf
| XFin (q : Q).

(** [F2Q s m e] is [(-1)^s * m * 2^e]. *)
Definition F2Q (s : bool) (m : positive) (e : Z) : Q :=
  (inject_Z (cond_Zopp s (Zpos m)) * 2 ^ e)%Q.

Definition SF_value (x : spec_float) : xreal :=
  match x with
  | S754_nan => XNaN
  | S754_infinity true => XNegInf
  | S754_infinity false => XPosInf
  | S754_zero _ => XFin 0
  | S754_finite s m e => XFin (F2Q s m e)
  end.

Definition float_value (x : float) : xreal := SF_value (Prim2SF x).

(** [x > n], [x <= n] and [x == n] on the denoted numbers, for an
    integer [n].  NaN is in no relation to any number. *)
Definition gt_Z (v : xreal) (n : Z) : Prop :=
  match v with
  | XPosInf => True
  | XFin q => (inject_Z n < q)%Q
  | _ => False
  end.

Definition le_Z (v : xreal) (n : Z) : Prop :=
  match v with
  | XNegInf => True
  | XFin q => (q <= inject_Z n)%Q
  | _ => False
  end.

Definition eq_Z (v : xreal) (n : Z) : Prop :=
  match v with
  | XFin q => (q == inject_Z n)%Q
  | _ => False
  end.

(** The order of the denoted numbers; a NaN is not comparable. *)
Definition xcompare (u v : xreal) : option comparison :=
  match u, v with
  | XNaN, _ | _, XNaN => None
  | XNegInf, XNegInf | XPosInf, XPosInf => Some Eq
  | XNegInf, _ | _, XPosInf => Some Lt
  | XPosInf, _ | _, XNegInf => Some Gt
  | XFin p, XFin q => Some (p ?= q)%Q
  end.

(** [float(n)] for an int [n]: the nearest binary64, ties to even
    (exact up to 53 bits). *)
Definition float_of_int (n : Z) : float :=
  SF2Prim (binary_normalize prec emax n 0 false).

(** Python's [x > n] for a float [x] and an int [n] of at most 48 bits,
    as the literals of this program are: CPython converts [n] to a
    double, exactly, and compares the two doubles; a NaN makes the
    comparison false. *)
Definition gt_int (x : float) (n : Z) : bool := (float_of_int n <? x)%float.

End PyFloat.

(* ================================================================= *)
(** * The classifier *)

Definition Label : Type := string.

(** [classify_sensor_data], lines 66-92 of main.py. *)
Definition classify_sensor_data (temperature : float) (co2_level : Z)
  : Label * float :=
  if PyFloat.gt_int temperature 50 || (1000 <? co2_level) then
    ("HOT"%string, 1%float)
  else if PyFloat.gt_int temperature 35 then
    ("WARM"%string, 1%float)
  else
    ("COLD"%string, 1%float).

(* ================================================================= *)
(** * Exceptions, the clock, and the monad of the handler *)

Module Py.

(** The exceptions the body of [predict]'s [try] can raise. *)
Inductive exn : Type :=
| OverflowError (msg : string)
| ValidationError (msg : string).

(** [str(e)]. *)
Definition str (e : exn) : string :=
  match e with
  | OverflowError msg => msg
  | ValidationError msg => msg
  end.

Inductive result (E A : Type) : Type :=
| Ok (a : A)
| Raise (e : E).

Arguments Ok {E A} a.
Arguments Raise {E A} e.

(** What a handler can observe of the outside: the readings of
    [time.perf_counter()], in the order they are taken. *)
Record World : Type := mkWorld {
  perf_clock : nat -> float;
  perf_reads : nat
}.

(** Computations that read the clock and may raise an [E]. *)
Definition M (E A : Type) : Type := World -> result E A * World.

Definition ret {E A} (a : A) : M E A := fun w => (Ok a, w).

Definition raise {E A} (e : E) : M E A := fun w => (Raise e, w).

Definition bind {E A B} (m : M E A) (k : A -> M E B) : M E B :=
  fun w =>
    match m w with
    | (Ok a, w') => k a w'
    | (Raise e, w') => (Raise e, w')
    end.

Definition lift {E A} (r : result E A) : M E A := fun w => (r, w).

(** [try: body  except Exception as e: handler e]. *)
Definition try_except {E E' A} (body : M E A) (handler : E -> M E' A)
  : M E' A :=
  fun w =>
    match body w with
    | (Ok a, w') => (Ok a, w')
    | (Raise e, w') => handler e w'
    end.

(** [time.perf_counter()]. *)
Definition perf_counter {E} : M E float :=
  fun w =>
    (Ok (perf_clock w (perf_reads w)),
     mkWorld (perf_clock w) (S (perf_reads w))).

End Py.

Notation "x <- m ;; k" := (Py.bind m (fun x => k))
  (at level 61, m at next level, right associativity).

(* ================================================================= *)
(** * The builtin [round(x, ndigits)] on floats *)

Module PyRound.

(** The integer nearest to [a / b], ties to the even one
    ([0 <= a], [0 < b]). *)
Definition div_half_even (a b : Z) : Z :=
  let q := a / b in
  match 2 * (a mod b) ?= b with
  | Lt => q
  | Gt => q + 1
  | Eq => if Z.even q then q else q + 1
  end.

(** Decimal values at and above this one do not round to a finite
    binary64: [2^1024 - 2^970], half an ulp above the largest float. *)
Definition overflow_threshold : Z := 2 ^ 1024 - 2 ^ 970.

Definition signed_zero (s : bool) : float :=
  if s then neg_zero else zero.

(** [float.__round__(x, ndigits)] with [ndigits] given.  A NaN, an
    infinity or a zero is returned as it is.  Otherwise [x] is rounded
    correctly to a decimal with [ndigits] digits after the point (ties to
    even, on the exact value of [x]), and the decimal is converted back to
    the nearest float; CPython raises [OverflowError] when that conversion
    overflows.  [|x| = num / den], the decimal is [dnum / dden]. *)
Definition float_round (x : float) (ndigits : Z) : Py.result Py.exn float :=
  match Prim2SF x with
  | S754_finite s m e =>
      let num := if 0 <=? e then Zpos m * 2 ^ e else Zpos m in
      let den := if 0 <=? e then 1 else 2 ^ (- e) in
      let n :=
        if 0 <=? ndigits then div_half_even (num * 10 ^ ndigits) den
        else div_half_even num (den * 10 ^ (- ndigits)) in
      let dnum := if 0 <=? ndigits then n else n * 10 ^ (- ndigits) in
      let dden := if 0 <=? ndigits then 10 ^ ndigits else 1 in
      if overflow_threshold * dden <=? dnum then
        Py.Raise (Py.OverflowError "rounded value too large to represent")
      else if n =? 0 then Py.Ok (signed_zero s)
      else
        let '(mz, ez, lz) := SFdiv_core_binary prec emax dnum 0 dden 0 in
        Py.Ok (SF2Prim (binary_round_aux prec emax s mz ez lz))
  | _ => Py.Ok x
  end.

End PyRound.

(* ================================================================= *)
(** * The request and response models *)

Module SensorData.

(** [class SensorData(BaseModel)], lines 29-33. *)
Record t : Type := mk {
  temperature : float;
  humidity : Z;
  co2_level : Z
}.

(** The [Field] constraints: [humidity] has [ge=0, le=100] and
    [co2_level] has [ge=0]; [temperature] is any float. *)
Definition valid (d : t) : bool :=
  (0 <=? humidity d) && (humidity d <=? 100) && (0 <=? co2_level d).

End SensorData.

Module PredictionResponse.

(** [class PredictionResponse(BaseModel)], lines 46-52. *)
Record t : Type := mk {
  label : string;
  confidence : float;
  temperature : float;
  co2_level : Z;
  processing_time_ms : float
}.

(** [Literal["HOT", "WARM", "COLD"]]. *)
Definition labels : list string := ["HOT"; "WARM"; "COLD"]%string.

Definition label_ok (l : string) : bool :=
  existsb (String.eqb l) labels.

(** [Field(..., ge=0.0, le=1.0)]. *)
Definition confidence_ok (c : float) : bool :=
  ((0 <=? c) && (c <=? 1))%float.

(** The names of the fields whose validation fails. *)
Definition errors (l : string) (c : float) : list string :=
  (if label_ok l then [] else ["label"%string])
  ++ (if confidence_ok c then [] else ["confidence"%string]).

(** The constructor [PredictionResponse(label=..., ...)]: pydantic
    validates every field and raises one [ValidationError] naming those
    that fail.  The three unconstrained fields receive values of their
    declared types here and cannot fail.  The text of the error is cut
    down to the names of the fields. *)
Definition new (l : string) (c : float) (temp : float) (co2 : Z)
  (ms : float) : Py.result Py.exn t :=
  match errors l c with
  | [] => Py.Ok (mk l c temp co2 ms)
  | fields =>
      Py.Raise (Py.ValidationError
        (String.concat ", " ("PredictionResponse"%string :: fields)))
  end.

End PredictionResponse.

(* ================================================================= *)
(** * The [/predict] handler *)

(** [HTTPException(status_code=..., detail=...)]. *)
Record HTTPException : Type := mkHTTPException {
  status_code : Z;
  detail : string
}.

(** The body of the [try], lines 141-157. *)
Definition predict_body (sensor_data : SensorData.t) (start_time : float)
  : Py.M Py.exn PredictionResponse.t :=
  let '(label, confidence) :=
    classify_sensor_data (SensorData.temperature sensor_data)
                         (SensorData.co2_level sensor_data) in
  now <- Py.perf_counter ;;
  let processing_time_ms := ((now - start_time) * 1000)%float in
  rounded <- Py.lift (PyRound.float_round processing_time_ms 3) ;;
  Py.lift (PredictionResponse.new label confidence
             (SensorData.temperature sensor_data)
             (SensorData.co2_level sensor_data)
             rounded).

(** [predict], lines 121-164. *)
Definition predict (sensor_data : SensorData.t)
  : Py.M HTTPException PredictionResponse.t :=
  start_time <- Py.perf_counter ;;
  Py.try_except
    (predict_body sensor_data start_time)
    (fun e =>
       Py.raise (mkHTTPException 500
                   ("Classification error: " ++ Py.str e)%string)).

(* ================================================================= *)
(** * The classifier on Python's run-time values *)

(** Python checks no annotation: at run time the function receives
    objects of any type, every operation on them happens in the world
    the call is made in, and a comparison the operand's type does not
    support raises [TypeError].  This second embedding of lines 66-92
    keeps all of that, so that returning without an error, and returning
    the same in every world, are statements to be proved. *)

Module PyDyn.

(** The objects an argument can be, as far as they matter here: those of
    the declared types [float] and [int], and beside them [None] and the
    strings. *)
Inductive value : Type :=
| VNone
| VInt (z : Z)
| VFloat (x : float)
| VStr (s : string).

Inductive exn : Type :=
| TypeError (msg : string).

(** [type(v).__name__]. *)
Definition type_name (v : value) : string :=
  match v with
  | VNone => "NoneType"
  | VInt _ => "int"
  | VFloat _ => "float"
  | VStr _ => "str"
  end.

(** [a > n] for an int literal [n] of at most 48 bits: ints are compared
    as integers, a float as [PyFloat.gt_int] does, and [None] and the
    strings do not support the comparison. *)
Definition gt_lit (a : value) (n : Z) : Py.M exn bool :=
  match a with
  | VInt z => Py.ret (n <? z)
  | VFloat x => Py.ret (PyFloat.gt_int x n)
  | _ =>
      Py.raise
        (TypeError ("'>' not supported between instances of '"
                    ++ type_name a ++ "' and 'int'")%string)
  end.

(** [a or b] on two comparisons: [b] is evaluated only when [a] is
    false. *)
Definition or_else (a b : Py.M exn bool) : Py.M exn bool :=
  x <- a ;; if x then Py.ret true else b.

(** [classify_sensor_data], lines 66-92 of main.py, on run-time
    values. *)
Definition classify_sensor_data (temperature co2_level : value)
  : Py.M exn (Label * float) :=
  hot <- or_else (gt_lit temperature 50) (gt_lit co2_level 1000) ;;
  if hot then
    Py.ret ("HOT"%string, 1%float)
  else
    warm <- gt_lit temperature 35 ;;
    if warm then
      Py.ret ("WARM"%string, 1%float)
    else
      Py.ret ("COLD"%string, 1%float).

(** The declared domain of the temperature: a float or, as Python lets
    an int stand where a float is declared, an int. *)
Definition is_real (v : value) : Prop :=
  match v with
  | VInt _ | VFloat _ => True
  | _ => False
  end.

End PyDyn.

(** The request of the schema's example (lines 36-42), the same with
    another humidity, and a clock whose two readings are 2^-10 s apart. *)
Definition example_request : SensorData.t := SensorData.mk 45.5 65 850.

Definition example_request_dry : SensorData.t := SensorData.mk 45.5 10 850.

Definition example_clock (n : nat) : float :=
  match n with
  | O => 100.25%float
  | S _ => 100.2509765625%float
  end.

Definition example_world : Py.World := Py.mkWorld example_clock 0.

Definition late_world : Py.World := Py.mkWorld example_clock 7.

(** A clock that stands still. *)
Definition still_world : Py.World :=
  Py.mkWorld (fun _ => 100.25%float) 0.

(** The alarm level of a label, in the order of the docstring's rules:
    COLD (normal conditions) below WARM (hot but not dangerous) below
    HOT (fire or gas warning). *)
Definition severity (l : Label) : Z :=
  if (l =? "HOT")%string then 2
  else if (l =? "WARM")%string then 1
  else 0.

(** The numbers from 0 to 1. *)
Definition in_unit_interval (v : PyFloat.xreal) : Prop :=
  match v with
  | PyFloat.XFin q => (0 <= q /\ q <= 1)%Q
  | _ => False
  end.

(** A float that is a number: neither a NaN nor an infinity. *)
Definition is_finite (x : float) : Prop :=
  exists q, PyFloat.float_value x = PyFloat.XFin q.

(* ================================================================= *)
(** * Theory: binary64 values and their order *)

Section Digits.

Lemma digits2_pos_upper (m : positive) :
  Zpos m < 2 ^ Zpos (digits2_pos m).
Proof.
  induction m as [p IH | p IH | ]; simpl digits2_pos.
  - rewrite Pos2Z.inj_succ, Z.pow_succ_r by lia. lia.
  - rewrite Pos2Z.inj_succ, Z.pow_succ_r by lia. lia.
  - reflexivity.
Qed.

Lemma digits2_pos_lower (m : positive) :
  2 ^ (Zpos (digits2_pos m) - 1) <= Zpos m.
Proof.
  induction m as [p IH | p IH | ]; simpl digits2_pos.
  - rewrite Pos2Z.inj_succ.
    replace (Z.succ (Zpos (digits2_pos p)) - 1)
      with (Z.succ (Zpos (digits2_pos p) - 1)) by lia.
    rewrite Z.pow_succ_r by lia. lia.
  - rewrite Pos2Z.inj_succ.
    replace (Z.succ (Zpos (digits2_pos p)) - 1)
      with (Z.succ (Zpos (digits2_pos p) - 1)) by lia.
    rewrite Z.pow_succ_r by lia. lia.
  - simpl. lia.
Qed.

(** What [valid_binary] says of a finite binary64. *)
Lemma bounded_inv (m : positive) (e : Z) :
  bounded prec emax m e = true ->
  -1074 <= e <= 971 /\
  Zpos (digits2_pos m) <= 53 /\
  (-1074 < e -> Zpos (digits2_pos m) = 53).
Proof.
  unfold bounded, canonical_mantissa, fexp, SpecFloat.emin, prec, emax.
  intros H. apply andb_true_iff in H as [H1 H2].
  apply Z.eqb_eq in H1. apply Z.leb_le in H2. lia.
Qed.

Lemma bounded_mantissa_lt (m : positive) (e : Z) :
  bounded prec emax m e = true -> Zpos m < 2 ^ 53.
Proof.
  intros H. destruct (bounded_inv m e H) as (_ & Hd & _).
  apply Z.lt_le_trans with (1 := digits2_pos_upper m).
  apply Z.pow_le_mono_r; lia.
Qed.

Lemma bounded_normal_ge (m : positive) (e : Z) :
  bounded prec emax m e = true -> -1074 < e -> 2 ^ 52 <= Zpos m.
Proof.
  intros H He. destruct (bounded_inv m e H) as (_ & _ & Hd).
  specialize (Hd He). generalize (digits2_pos_lower m).
  rewrite Hd. simpl Z.sub. trivial.
Qed.

End Digits.

Section Order.

Import PyFloat.

Local Open Scope Q_scope.

Lemma pow2_pos (e : Z) : 0 < 2 ^ e.
Proof. apply Qpower_0_lt. reflexivity. Qed.

Lemma F2Q_pos (m : positive) (e : Z) : 0 < F2Q false m e.
Proof.
  unfold F2Q. simpl cond_Zopp.
  apply Qmult_lt_0_compat; [reflexivity | apply pow2_pos].
Qed.

Lemma F2Q_opp (m : positive) (e : Z) : F2Q true m e == - F2Q false m e.
Proof.
  unfold F2Q. simpl cond_Zopp.
  change (inject_Z (Z.neg m)) with (- inject_Z (Z.pos m)).
  generalize (2 ^ e) (inject_Z (Z.pos m)). intros q r. ring.
Qed.

Lemma F2Q_neg (m : positive) (e : Z) : F2Q true m e < 0.
Proof.
  rewrite F2Q_opp. generalize (F2Q_pos m e). intros H.
  apply Qopp_lt_compat in H. exact H.
Qed.

(** With one exponent the mantissas decide. *)
Lemma F2Q_compare_mantissa (m1 m2 : positive) (e : Z) :
  (F2Q false m1 e ?= F2Q false m2 e) = (m1 ?= m2)%positive.
Proof.
  unfold F2Q. simpl cond_Zopp.
  destruct (Pos.compare_spec m1 m2) as [H | H | H].
  - subst. apply Qeq_alt. reflexivity.
  - apply Qlt_alt. apply Qmult_lt_r; [apply pow2_pos |].
    rewrite <- Zlt_Qlt. lia.
  - apply Qgt_alt. apply Qmult_lt_r; [apply pow2_pos |].
    rewrite <- Zlt_Qlt. lia.
Qed.

(** Of two canonical positive floats, the one with the smaller exponent
    is the smaller number. *)
Lemma F2Q_lt_exponent (m1 m2 : positive) (e1 e2 : Z) :
  bounded prec emax m1 e1 = true ->
  bounded prec emax m2 e2 = true ->
  (e1 < e2)%Z ->
  F2Q false m1 e1 < F2Q false m2 e2.
Proof.
  intros B1 B2 He. unfold F2Q. simpl cond_Zopp.
  replace e2 with ((e2 - e1) + e1)%Z by lia.
  rewrite Qpower_plus by discriminate.
  rewrite Qmult_assoc. apply Qmult_lt_r; [apply pow2_pos |].
  change 2 with (inject_Z 2).
  rewrite <- Zpower_Qpower by lia.
  rewrite <- inject_Z_mult, <- Zlt_Qlt.
  pose proof (bounded_mantissa_lt m1 e1 B1) as H1.
  destruct (bounded_inv m1 e1 B1) as (Hle & _).
  assert (H2 : (2 ^ 52 <= Z.pos m2)%Z)
    by (apply (bounded_normal_ge m2 e2 B2); lia).
  assert (H3 : (2 ^ 1 <= 2 ^ (e2 - e1))%Z)
    by (apply Z.pow_le_mono_r; lia).
  change (2 ^ 1)%Z with 2%Z in H3.
  change (2 ^ 53)%Z with (2 ^ 52 * 2)%Z in H1.
  nia.
Qed.

Lemma Qcompare_opp (p q : Q) : (- p ?= - q) = (q ?= p).
Proof.
  unfold Qcompare. simpl.
  rewrite !Z.mul_opp_l. apply Z.compare_opp.
Qed.

Lemma Qcompare_lt (p q : Q) : p < q -> (p ?= q) = Lt.
Proof. apply Qlt_alt. Qed.

Lemma Qcompare_gt (p q : Q) : q < p -> (p ?= q) = Gt.
Proof. apply Qgt_alt. Qed.

Lemma SFcompare_finite_pos (m1 m2 : positive) (e1 e2 : Z) :
  bounded prec emax m1 e1 = true ->
  bounded prec emax m2 e2 = true ->
  match (e1 ?= e2)%Z with
  | Lt => Lt
  | Gt => Gt
  | Eq => Pos.compare_cont Eq m1 m2
  end = (F2Q false m1 e1 ?= F2Q false m2 e2).
Proof.
  intros B1 B2. destruct (Z.compare_spec e1 e2) as [H | H | H].
  - subst. symmetry. apply F2Q_compare_mantissa.
  - symmetry. apply Qcompare_lt. now apply F2Q_lt_exponent.
  - symmetry. apply Qcompare_gt. now apply F2Q_lt_exponent.
Qed.

(** The IEEE comparison of two binary64 values is the comparison of the
    numbers they stand for. *)
Lemma SFcompare_value (x y : spec_float) :
  valid_binary x = true ->
  valid_binary y = true ->
  SFcompare x y = xcompare (SF_value x) (SF_value y).
Proof.
  intros Vx Vy.
  destruct x as [sx | sx | | sx mx ex], y as [sy | sy | | sy my ey];
    simpl in *;
    try reflexivity;
    try (destruct sx; reflexivity);
    try (destruct sy; reflexivity);
    try (destruct sx, sy; reflexivity).
  - destruct sy; f_equal; symmetry.
    + apply Qcompare_gt, F2Q_neg.
    + apply Qcompare_lt, F2Q_pos.
  - destruct sx; f_equal; symmetry.
    + apply Qcompare_lt, F2Q_neg.
    + apply Qcompare_gt, F2Q_pos.
  - destruct sx, sy; f_equal.
    + rewrite (Qcompare_comp _ _ (F2Q_opp mx ex) _ _ (F2Q_opp my ey)).
      rewrite Qcompare_opp.
      rewrite <- (SFcompare_finite_pos my mx ey ex Vy Vx).
      rewrite (Z.compare_antisym ey ex).
      destruct (ey ?= ex)%Z; simpl; try reflexivity.
      change (Pos.compare_cont Eq mx my) with (mx ?= my)%positive.
      change (Pos.compare_cont Eq my mx) with (my ?= mx)%positive.
      symmetry. apply Pos.compare_antisym.
    + symmetry. apply Qcompare_lt.
      apply Qlt_trans with (1 := F2Q_neg mx ex). apply F2Q_pos.
    + symmetry. apply Qcompare_gt.
      apply Qlt_trans with (1 := F2Q_neg my ey). apply F2Q_pos.
    + now apply SFcompare_finite_pos.
Qed.

End Order.

(* ================================================================= *)
(** * Theory: Python's comparison of a float with an int literal *)

Section Comparison.

Import PyFloat.

Lemma gt_int_xcompare (x : float) (n : Z) :
  gt_int x n = true <->
  xcompare (float_value (float_of_int n)) (float_value x) = Some Lt.
Proof.
  unfold gt_int, float_value. rewrite FloatAxioms.ltb_spec. unfold SFltb.
  rewrite SFcompare_value by apply Prim2SF_valid.
  destruct (xcompare _ _) as [[ | | ] | ]; split; congruence.
Qed.

Lemma xcompare_lt_gt_Z (q : Q) (k : Z) (v : xreal) :
  (q == inject_Z k)%Q ->
  xcompare (XFin q) v = Some Lt <-> gt_Z v k.
Proof.
  intros Hq. destruct v as [ | | | p]; simpl.
  - split; [discriminate | tauto].
  - split; [discriminate | tauto].
  - split; trivial.
  - rewrite (Qcompare_comp _ _ Hq p p (Qeq_refl p)).
    rewrite Qlt_alt. split; congruence.
Qed.

(** [x > n] holds in Python exactly when the number [x] stands for is
    greater than [n], for an int [n] that converts exactly. *)
Lemma gt_int_true_iff (x : float) (n : Z) :
  eq_Z (float_value (float_of_int n)) n ->
  gt_int x n = true <-> gt_Z (float_value x) n.
Proof.
  intros Hc. rewrite gt_int_xcompare.
  destruct (float_value (float_of_int n)) as [ | | | q];
    simpl in Hc; try contradiction.
  now apply xcompare_lt_gt_Z.
Qed.

Lemma le_Z_not_gt_Z (v : xreal) (k : Z) : le_Z v k -> ~ gt_Z v k.
Proof.
  destruct v as [ | | | q]; simpl; try tauto.
  intros H1 H2. apply (Qlt_irrefl q).
  now apply Qle_lt_trans with (inject_Z k).
Qed.

Lemma gt_int_false_of_le (x : float) (n : Z) :
  eq_Z (float_value (float_of_int n)) n ->
  le_Z (float_value x) n -> gt_int x n = false.
Proof.
  intros Hc Hle. apply not_true_is_false. intros H.
  apply (gt_int_true_iff x n Hc) in H.
  now apply (le_Z_not_gt_Z _ _ Hle).
Qed.

Lemma gt_Z_mono (v : xreal) (j k : Z) :
  (j <= k)%Z -> gt_Z v k -> gt_Z v j.
Proof.
  intros Hjk. destruct v as [ | | | q]; simpl; try tauto.
  apply Qle_lt_trans. now rewrite <- Zle_Qle.
Qed.

Lemma eq_Z_le_Z (v : xreal) (k : Z) : eq_Z v k -> le_Z v k.
Proof.
  destruct v as [ | | | q]; simpl; try tauto.
  intros H. rewrite H. apply Qle_refl.
Qed.

Lemma eq_Z_gt_Z (v : xreal) (j k : Z) :
  (j < k)%Z -> eq_Z v k -> gt_Z v j.
Proof.
  destruct v as [ | | | q]; simpl; try tauto.
  intros Hjk H. rewrite H. now rewrite <- Zlt_Qlt.
Qed.

(** The two thresholds convert exactly, to the floats 50.0 and 35.0. *)
Lemma value_50 : eq_Z (float_value (float_of_int 50)) 50.
Proof. vm_compute. reflexivity. Qed.

Lemma value_35 : eq_Z (float_value (float_of_int 35)) 35.
Proof. vm_compute. reflexivity. Qed.

Lemma float_of_int_50 : float_of_int 50 = 50%float.
Proof. reflexivity. Qed.

Lemma value_1 : eq_Z (float_value 1) 1.
Proof. vm_compute. reflexivity. Qed.

(** Python's [==] on floats relates two floats that compare alike with
    every third one. *)
Lemma SFeqb_true_inv (x y : spec_float) :
  SFeqb x y = true ->
  x = y \/ exists s s', x = S754_zero s /\ y = S754_zero s'.
Proof.
  unfold SFeqb.
  destruct x as [sx | sx | | sx mx ex], y as [sy | sy | | sy my ey];
    simpl; try discriminate;
    try (intros _; right; now exists sx, sy);
    try (destruct sx; discriminate);
    try (destruct sy; discriminate);
    try (destruct sx, sy; try discriminate; now left).
  change (Pos.compare_cont Eq mx my) with (mx ?= my)%positive.
  destruct sx, sy; try discriminate;
    destruct (Z.compare_spec ex ey) as [He | He | He];
    try discriminate;
    destruct (Pos.compare_spec mx my) as [Hm | Hm | Hm];
    try discriminate; subst; now left.
Qed.

Lemma SFeqb_SFcompare (x y c : spec_float) :
  SFeqb x y = true -> SFcompare c x = SFcompare c y.
Proof.
  intros H. destruct (SFeqb_true_inv x y H) as [E | (s & s' & Ex & Ey)].
  - now subst.
  - subst. destruct c as [sc | sc | | sc mc ec]; reflexivity.
Qed.

Lemma gt_int_eqb (x y : float) (n : Z) :
  (x =? y)%float = true -> gt_int x n = gt_int y n.
Proof.
  intros H. rewrite FloatAxioms.eqb_spec in H. unfold gt_int.
  rewrite !FloatAxioms.ltb_spec. unfold SFltb.
  now rewrite (SFeqb_SFcompare _ _ (Prim2SF (float_of_int n)) H).
Qed.

End Comparison.

(* ================================================================= *)
(** * Theory: [round(x, 3)] never overflows *)

Section Rounding.

Import PyRound.

Lemma div_half_even_le (a b : Z) :
  0 <= a -> 0 < b -> div_half_even a b <= a + 1.
Proof.
  intros Ha Hb. unfold div_half_even.
  assert (Hq : a / b <= a).
  { apply Z.div_le_upper_bound; nia. }
  destruct (2 * (a mod b) ?= b); [destruct (Z.even (a / b)) | | ]; lia.
Qed.

Lemma div_half_even_1 (a : Z) : div_half_even a 1 = a.
Proof.
  unfold div_half_even. rewrite Z.mod_1_r, Z.div_1_r. reflexivity.
Qed.

(** The largest binary64, [(2^53 - 1) * 2^971], lies below the
    threshold, and so does every number with a fractional part. *)
Lemma threshold_above_max_float :
  (2 ^ 53 - 1) * 2 ^ 971 < overflow_threshold.
Proof. vm_compute. reflexivity. Qed.

Lemma threshold_above_fractional :
  2 ^ 53 * 10 ^ 3 + 1 < overflow_threshold * 10 ^ 3.
Proof. vm_compute. reflexivity. Qed.

Lemma round3_below_threshold (m : positive) (e : Z) :
  bounded prec emax m e = true ->
  div_half_even
    ((if 0 <=? e then Zpos m * 2 ^ e else Zpos m) * 10 ^ 3)
    (if 0 <=? e then 1 else 2 ^ (- e))
  < overflow_threshold * 10 ^ 3.
Proof.
  intros B. pose proof (bounded_mantissa_lt m e B) as Hm.
  destruct (bounded_inv m e B) as ((_ & He) & _).
  destruct (0 <=? e) eqn:E.
  - apply Z.leb_le in E. rewrite div_half_even_1.
    apply Z.mul_lt_mono_pos_r; [reflexivity |].
    apply Z.le_lt_trans with (2 := threshold_above_max_float).
    apply Z.mul_le_mono_nonneg.
    + lia.
    + lia.
    + apply Z.pow_nonneg; lia.
    + apply Z.pow_le_mono_r; lia.
  - apply Z.leb_gt in E.
    apply Z.le_lt_trans with (2 := threshold_above_fractional).
    assert (Hp : 0 < 2 ^ (- e)) by (apply Z.pow_pos_nonneg; lia).
    assert (H10 : 0 < 10 ^ 3) by reflexivity.
    apply Z.le_trans with (Zpos m * 10 ^ 3 + 1).
    + apply div_half_even_le; nia.
    + nia.
Qed.

(** The [OverflowError] of [round] is out of reach with [ndigits = 3]. *)
Lemma float_round_3_ok (x : float) :
  exists r, float_round x 3 = Py.Ok r.
Proof.
  unfold float_round. pose proof (Prim2SF_valid x) as V.
  destruct (Prim2SF x) as [s | s | | s m e]; try (eexists; reflexivity).
  simpl in V. change (0 <=? 3) with true. cbv iota.
  pose proof (round3_below_threshold m e V) as H.
  apply Z.leb_gt in H. rewrite H.
  destruct (_ =? 0).
  - eexists; reflexivity.
  - destruct (SFdiv_core_binary _ _ _ _ _ _) as [[mz ez] lz].
    eexists; reflexivity.
Qed.

End Rounding.

(* ================================================================= *)
(** * The classifier: the properties of the specification *)

Section Classifier.

Import PyFloat.

(** The three returns of the function, and nothing else. *)
Lemma classify_cases (temperature : float) (co2_level : Z) :
  classify_sensor_data temperature co2_level = ("HOT"%string, 1%float) \/
  classify_sensor_data temperature co2_level = ("WARM"%string, 1%float) \/
  classify_sensor_data temperature co2_level = ("COLD"%string, 1%float).
Proof.
  unfold classify_sensor_data.
  destruct (gt_int temperature 50 || (1000 <? co2_level));
    [ | destruct (gt_int temperature 35)]; tauto.
Qed.

(** C1. Whenever the temperature is above 50, or the CO2 level is above
    1000, the label is HOT, whatever the other argument is. *)
Theorem hot_rule (temperature : float) (co2_level : Z) :
  gt_Z (float_value temperature) 50 \/ 1000 < co2_level ->
  fst (classify_sensor_data temperature co2_level) = "HOT"%string.
Proof.
  intros H. unfold classify_sensor_data.
  assert (E : gt_int temperature 50 || (1000 <? co2_level) = true).
  { apply orb_true_iff. destruct H as [H | H].
    - left. now apply (gt_int_true_iff _ 50 value_50).
    - right. now apply Z.ltb_lt. }
  rewrite E. reflexivity.
Qed.

Lemma hot_rule_witness :
  (gt_Z (float_value 50.5) 50 \/ 1000 < 0) /\
  fst (classify_sensor_data 50.5 0) = "HOT"%string.
Proof.
  assert (H : gt_Z (float_value 50.5) 50 \/ 1000 < 0)
    by (left; vm_compute; reflexivity).
  split; [exact H | exact (hot_rule 50.5 0 H)].
Defined.

(** C2. A temperature above 35 and at most 50, with a CO2 level of at
    most 1000, gives WARM; so does the temperature 50 itself, the
    comparisons being strict. *)
Theorem warm_rule (temperature : float) (co2_level : Z) :
  gt_Z (float_value temperature) 35 ->
  le_Z (float_value temperature) 50 ->
  co2_level <= 1000 ->
  fst (classify_sensor_data temperature co2_level) = "WARM"%string /\
  fst (classify_sensor_data 50 co2_level) = "WARM"%string.
Proof.
  intros H35 H50 Hc.
  assert (Ec : (1000 <? co2_level) = false) by now apply Z.ltb_ge.
  assert (W : forall t, gt_Z (float_value t) 35 ->
                        le_Z (float_value t) 50 ->
                        fst (classify_sensor_data t co2_level) = "WARM"%string).
  { intros t G L. unfold classify_sensor_data.
    rewrite (gt_int_false_of_le t 50 value_50 L), Ec.
    apply (gt_int_true_iff t 35 value_35) in G. rewrite G.
    reflexivity. }
  split.
  - now apply W.
  - apply W.
    + apply (eq_Z_gt_Z _ 35 50); [lia | exact value_50].
    + apply eq_Z_le_Z, value_50.
Qed.

Lemma warm_rule_witness :
  gt_Z (float_value 50) 35 /\ le_Z (float_value 50) 50 /\ 1000 <= 1000 /\
  fst (classify_sensor_data 50 1000) = "WARM"%string.
Proof.
  assert (H1 : gt_Z (float_value 50) 35) by (vm_compute; reflexivity).
  assert (H2 : le_Z (float_value 50) 50) by (vm_compute; discriminate).
  assert (H3 : 1000 <= 1000) by lia.
  exact (conj H1 (conj H2 (conj H3
           (proj1 (warm_rule 50 1000 H1 H2 H3))))).
Defined.

(** C3. A temperature of at most 35 with a CO2 level of at most 1000
    gives COLD; so do the temperature 35 itself and, at such a
    temperature, the CO2 level 1000. *)
Theorem cold_rule (temperature : float) (co2_level : Z) :
  le_Z (float_value temperature) 35 ->
  co2_level <= 1000 ->
  fst (classify_sensor_data temperature co2_level) = "COLD"%string /\
  fst (classify_sensor_data 35 co2_level) = "COLD"%string /\
  fst (classify_sensor_data temperature 1000) = "COLD"%string.
Proof.
  intros H35 Hc.
  assert (C : forall t c, le_Z (float_value t) 35 -> c <= 1000 ->
                          fst (classify_sensor_data t c) = "COLD"%string).
  { intros t c L Hle. unfold classify_sensor_data.
    assert (E50 : gt_int t 50 = false).
    { apply not_true_is_false. intros G.
      apply (gt_int_true_iff t 50 value_50) in G.
      apply (gt_Z_mono _ 35 50) in G; [ | lia].
      now apply (le_Z_not_gt_Z _ _ L). }
    assert (Ec : (1000 <? c) = false) by now apply Z.ltb_ge.
    rewrite E50, Ec, (gt_int_false_of_le t 35 value_35 L).
    reflexivity. }
  repeat split.
  - now apply C.
  - apply C; [apply eq_Z_le_Z, value_35 | assumption].
  - apply C; [assumption | lia].
Qed.

Lemma cold_rule_witness :
  le_Z (float_value 35) 35 /\ 1000 <= 1000 /\
  fst (classify_sensor_data 35 1000) = "COLD"%string.
Proof.
  assert (H1 : le_Z (float_value 35) 35) by (vm_compute; discriminate).
  assert (H2 : 1000 <= 1000) by lia.
  exact (conj H1 (conj H2 (proj1 (cold_rule 35 1000 H1 H2)))).
Defined.

(** C4. The confidence is the float 1.0, the number one, for every
    input. *)
Theorem confidence_one (temperature : float) (co2_level : Z) :
  snd (classify_sensor_data temperature co2_level) = 1%float /\
  eq_Z (float_value (snd (classify_sensor_data temperature co2_level))) 1.
Proof.
  assert (E : snd (classify_sensor_data temperature co2_level) = 1%float).
  { destruct (classify_cases temperature co2_level) as [E | [E | E]];
      now rewrite E. }
  rewrite E. split; [reflexivity | exact value_1].
Qed.

(** C5. The label is HOT, WARM or COLD, the three values of the
    response's [Literal], and never another string. *)
Theorem label_closed (temperature : float) (co2_level : Z) :
  In (fst (classify_sensor_data temperature co2_level))
     PredictionResponse.labels /\
  (fst (classify_sensor_data temperature co2_level) = "HOT"%string \/
   fst (classify_sensor_data temperature co2_level) = "WARM"%string \/
   fst (classify_sensor_data temperature co2_level) = "COLD"%string).
Proof.
  destruct (classify_cases temperature co2_level) as [E | [E | E]];
    rewrite E; simpl; tauto.
Qed.

(** On a float and an int the function on run-time values is the typed
    one, in every world. *)
Lemma dyn_classify_typed (t : float) (c : Z) (w : Py.World) :
  PyDyn.classify_sensor_data (PyDyn.VFloat t) (PyDyn.VInt c) w
  = (Py.Ok (classify_sensor_data t c), w).
Proof.
  unfold PyDyn.classify_sensor_data, PyDyn.or_else, PyDyn.gt_lit,
    classify_sensor_data, Py.bind, Py.ret.
  destruct (gt_int t 50), (1000 <? c), (gt_int t 35); reflexivity.
Qed.

(** An int temperature is compared as an integer. *)
Lemma dyn_classify_int (z c : Z) (w : Py.World) :
  PyDyn.classify_sensor_data (PyDyn.VInt z) (PyDyn.VInt c) w
  = (Py.Ok (if (50 <? z) || (1000 <? c) then ("HOT"%string, 1%float)
            else if 35 <? z then ("WARM"%string, 1%float)
            else ("COLD"%string, 1%float)), w).
Proof.
  unfold PyDyn.classify_sensor_data, PyDyn.or_else, PyDyn.gt_lit,
    Py.bind, Py.ret.
  destruct (50 <? z), (1000 <? c), (35 <? z); reflexivity.
Qed.

(** C6. On its declared domain the function is total: for every real
    temperature (a float, a NaN and the infinities included, or an int)
    and every integer CO2 level, in every world, the call returns a pair
    of one of the three labels and the confidence 1.0, and raises
    nothing: the last branch takes what the two tests leave. *)
Theorem classify_total (temperature : PyDyn.value) (co2_level : Z)
  (w : Py.World) :
  PyDyn.is_real temperature ->
  (exists (label : Label) (confidence : float),
     PyDyn.classify_sensor_data temperature (PyDyn.VInt co2_level) w
     = (Py.Ok (label, confidence), w) /\
     In label PredictionResponse.labels /\ confidence = 1%float) /\
  (forall e w',
     PyDyn.classify_sensor_data temperature (PyDyn.VInt co2_level) w
     <> (Py.Raise e, w')).
Proof.
  intros R.
  assert (H : exists (label : Label) (confidence : float),
             PyDyn.classify_sensor_data temperature
               (PyDyn.VInt co2_level) w
             = (Py.Ok (label, confidence), w) /\
             In label PredictionResponse.labels /\
             confidence = 1%float).
  { destruct temperature as [ | z | t | s]; simpl in R; try contradiction.
    - rewrite dyn_classify_int.
      destruct ((50 <? z) || (1000 <? co2_level));
        [ | destruct (35 <? z)];
        do 2 eexists; (split; [reflexivity | simpl; tauto]).
    - rewrite dyn_classify_typed.
      destruct (classify_cases t co2_level) as [E | [E | E]];
        rewrite E; do 2 eexists;
        (split; [reflexivity | simpl; tauto]). }
  split; [exact H | ].
  intros e w' E. destruct H as (l & c & H & _).
  rewrite H in E. discriminate.
Qed.

Lemma classify_total_witness :
  PyDyn.is_real (PyDyn.VFloat nan) /\
  exists (label : Label) (confidence : float),
    PyDyn.classify_sensor_data (PyDyn.VFloat nan) (PyDyn.VInt (-5))
      example_world
    = (Py.Ok (label, confidence), example_world) /\
    In label PredictionResponse.labels /\ confidence = 1%float.
Proof.
  exact (conj I (proj1 (classify_total (PyDyn.VFloat nan) (-5)
                          example_world I))).
Defined.

(** Outside the declared domain the call can raise: [None] supports no
    comparison, and a string as CO2 level is compared only when the
    temperature test has failed. *)
Example outside_the_domain :
  PyDyn.classify_sensor_data PyDyn.VNone (PyDyn.VInt 0) example_world
  = (Py.Raise
       (PyDyn.TypeError
          "'>' not supported between instances of 'NoneType' and 'int'"),
     example_world) /\
  PyDyn.classify_sensor_data (PyDyn.VFloat 60) (PyDyn.VStr "high")
    example_world
  = (Py.Ok ("HOT"%string, 1%float), example_world) /\
  PyDyn.classify_sensor_data (PyDyn.VFloat 20) (PyDyn.VStr "high")
    example_world
  = (Py.Raise
       (PyDyn.TypeError
          "'>' not supported between instances of 'str' and 'int'"),
     example_world).
Proof. repeat split. Qed.

(** C7. The function is deterministic: two calls with the same
    arguments, made in any two worlds, end alike (with the same pair,
    or with the same error outside the declared domain), and neither
    call reads the clock or changes the world. *)
Theorem classify_deterministic (temperature co2_level : PyDyn.value)
  (w1 w2 : Py.World) :
  fst (PyDyn.classify_sensor_data temperature co2_level w1)
  = fst (PyDyn.classify_sensor_data temperature co2_level w2) /\
  snd (PyDyn.classify_sensor_data temperature co2_level w1) = w1 /\
  snd (PyDyn.classify_sensor_data temperature co2_level w2) = w2.
Proof.
  unfold PyDyn.classify_sensor_data, PyDyn.or_else, PyDyn.gt_lit,
    Py.bind, Py.ret, Py.raise.
  destruct temperature as [ | z | t | s],
           co2_level as [ | c | x | s'];
    repeat match goal with
           | |- context [if ?b then _ else _] => destruct b
           end;
    repeat split.
Qed.

(** The handler, in contrast, does read the clock: the same request
    gets different responses in two worlds. *)
Lemma predict_depends_on_clock :
  fst (predict example_request example_world)
  <> fst (predict example_request still_world).
Proof.
  intros H.
  apply (f_equal (fun r =>
                    match r with
                    | Py.Ok p =>
                        is_zero (PredictionResponse.processing_time_ms p)
                    | Py.Raise _ => false
                    end)) in H.
  vm_compute in H. discriminate.
Qed.

(** Temperatures that are equal for Python's [==], such as [0.0] and
    [-0.0], are classified alike. *)
Theorem classify_eqb (t1 t2 : float) (co2_level : Z) :
  (t1 =? t2)%float = true ->
  classify_sensor_data t1 co2_level = classify_sensor_data t2 co2_level.
Proof.
  intros Ht. unfold classify_sensor_data.
  now rewrite (gt_int_eqb t1 t2 50 Ht), (gt_int_eqb t1 t2 35 Ht).
Qed.

Lemma classify_eqb_witness :
  (zero =? neg_zero)%float = true /\
  classify_sensor_data zero 850 = classify_sensor_data neg_zero 850.
Proof.
  exact (conj eq_refl (classify_eqb zero neg_zero 850 eq_refl)).
Defined.

(** The boundary scenarios the specification lists. *)
Example boundary_scenarios :
  classify_sensor_data 50 0 = ("WARM"%string, 1%float) /\
  classify_sensor_data 50.01 0 = ("HOT"%string, 1%float) /\
  classify_sensor_data 0 1000 = ("COLD"%string, 1%float) /\
  classify_sensor_data 0 1001 = ("HOT"%string, 1%float) /\
  classify_sensor_data 35 0 = ("COLD"%string, 1%float) /\
  classify_sensor_data 35.01 0 = ("WARM"%string, 1%float) /\
  classify_sensor_data 45.5 850 = ("WARM"%string, 1%float).
Proof. repeat split. Qed.

(** Outside the reals: a NaN is neither above 50 nor above 35. *)
Example not_a_number :
  classify_sensor_data nan 0 = ("COLD"%string, 1%float) /\
  classify_sensor_data nan 1001 = ("HOT"%string, 1%float) /\
  classify_sensor_data infinity 0 = ("HOT"%string, 1%float) /\
  classify_sensor_data neg_infinity 0 = ("COLD"%string, 1%float).
Proof. repeat split. Qed.

End Classifier.

(* ================================================================= *)
(** * The handler: the properties of the specification *)

Section Handler.

(** The classifier's pair always passes the response's validation. *)
Lemma response_new_classified (t : float) (c : Z) (temp : float)
  (co2 : Z) (ms : float) :
  PredictionResponse.new (fst (classify_sensor_data t c))
                         (snd (classify_sensor_data t c)) temp co2 ms
  = Py.Ok (PredictionResponse.mk (fst (classify_sensor_data t c))
                                 (snd (classify_sensor_data t c))
                                 temp co2 ms).
Proof.
  destruct (classify_cases t c) as [E | [E | E]]; rewrite E; reflexivity.
Qed.

(** The body of the [try] returns, having read the clock once. *)
Lemma predict_body_ok (sd : SensorData.t) (start_time : float)
  (w : Py.World) :
  exists ms,
    predict_body sd start_time w =
    (Py.Ok (PredictionResponse.mk
              (fst (classify_sensor_data (SensorData.temperature sd)
                                         (SensorData.co2_level sd)))
              (snd (classify_sensor_data (SensorData.temperature sd)
                                         (SensorData.co2_level sd)))
              (SensorData.temperature sd)
              (SensorData.co2_level sd)
              ms),
     Py.mkWorld (Py.perf_clock w) (S (Py.perf_reads w))).
Proof.
  unfold predict_body.
  pose proof (response_new_classified (SensorData.temperature sd)
                (SensorData.co2_level sd)) as N.
  destruct (classify_sensor_data _ _) as [l c]. simpl fst in *.
  simpl snd in *.
  unfold Py.bind, Py.perf_counter, Py.lift.
  destruct (float_round_3_ok
              ((Py.perf_clock w (Py.perf_reads w) - start_time) * 1000))
    as [r Hr].
  rewrite Hr, N. now exists r.
Qed.

(** The handler returns what its body returns. *)
Lemma predict_ok (sd : SensorData.t) (w : Py.World) :
  exists ms,
    predict sd w =
    (Py.Ok (PredictionResponse.mk
              (fst (classify_sensor_data (SensorData.temperature sd)
                                         (SensorData.co2_level sd)))
              (snd (classify_sensor_data (SensorData.temperature sd)
                                         (SensorData.co2_level sd)))
              (SensorData.temperature sd)
              (SensorData.co2_level sd)
              ms),
     Py.mkWorld (Py.perf_clock w) (S (S (Py.perf_reads w)))).
Proof.
  unfold predict, Py.bind, Py.try_except.
  unfold Py.perf_counter at 1.
  destruct (predict_body_ok sd (Py.perf_clock w (Py.perf_reads w))
              (Py.mkWorld (Py.perf_clock w) (S (Py.perf_reads w))))
    as [ms Hms].
  rewrite Hms. now exists ms.
Qed.

(** C8. For a valid request the response echoes the request's
    temperature and CO2 level, and its label and confidence are the pair
    the classifier returns on them. *)
Theorem predict_echo (sd : SensorData.t) (w : Py.World) :
  SensorData.valid sd = true ->
  exists r w',
    predict sd w = (Py.Ok r, w') /\
    PredictionResponse.temperature r = SensorData.temperature sd /\
    PredictionResponse.co2_level r = SensorData.co2_level sd /\
    (PredictionResponse.label r, PredictionResponse.confidence r) =
    classify_sensor_data (SensorData.temperature sd)
                         (SensorData.co2_level sd).
Proof.
  intros _. destruct (predict_ok sd w) as [ms H].
  eexists. eexists. split; [exact H | ]. simpl.
  repeat split. now destruct (classify_sensor_data _ _).
Qed.

(** C9. Two valid requests that differ in humidity alone receive the
    same label and the same confidence, whatever the clock reads. *)
Theorem humidity_ignored (sd1 sd2 : SensorData.t) (w1 w2 : Py.World) :
  SensorData.valid sd1 = true ->
  SensorData.valid sd2 = true ->
  SensorData.temperature sd1 = SensorData.temperature sd2 ->
  SensorData.co2_level sd1 = SensorData.co2_level sd2 ->
  exists r1 r2 w1' w2',
    predict sd1 w1 = (Py.Ok r1, w1') /\
    predict sd2 w2 = (Py.Ok r2, w2') /\
    PredictionResponse.label r1 = PredictionResponse.label r2 /\
    PredictionResponse.confidence r1 = PredictionResponse.confidence r2.
Proof.
  intros _ _ Ht Hc.
  destruct (predict_ok sd1 w1) as [ms1 H1].
  destruct (predict_ok sd2 w2) as [ms2 H2].
  do 4 eexists. split; [exact H1 | ]. split; [exact H2 | ]. simpl.
  rewrite Ht, Hc. split; reflexivity.
Qed.

(** C10. For a valid request the body of the [try] raises nothing, so
    the [except] branch is not taken: the handler returns a response and
    never the HTTPException with status 500. *)
Theorem predict_never_500 (sd : SensorData.t) (w : Py.World) :
  SensorData.valid sd = true ->
  (forall start_time w0 e w',
     predict_body sd start_time w0 <> (Py.Raise e, w')) /\
  (exists r w', predict sd w = (Py.Ok r, w')) /\
  (forall h w', predict sd w <> (Py.Raise h, w')).
Proof.
  intros _. split; [ | split].
  - intros start_time w0 e w' H.
    destruct (predict_body_ok sd start_time w0) as [ms Hms].
    rewrite Hms in H. discriminate.
  - destruct (predict_ok sd w) as [ms H]. eauto.
  - intros h w' H. destruct (predict_ok sd w) as [ms Hms].
    rewrite Hms in H. discriminate.
Qed.

Lemma predict_echo_witness :
  SensorData.valid example_request = true /\
  exists r w',
    predict example_request example_world = (Py.Ok r, w') /\
    PredictionResponse.temperature r = 45.5%float /\
    PredictionResponse.co2_level r = 850 /\
    (PredictionResponse.label r, PredictionResponse.confidence r) =
    classify_sensor_data 45.5 850.
Proof.
  exact (conj eq_refl (predict_echo example_request example_world eq_refl)).
Defined.

Lemma humidity_ignored_witness :
  SensorData.valid example_request = true /\
  SensorData.valid example_request_dry = true /\
  exists r1 r2 w1' w2',
    predict example_request example_world = (Py.Ok r1, w1') /\
    predict example_request_dry late_world = (Py.Ok r2, w2') /\
    PredictionResponse.label r1 = PredictionResponse.label r2 /\
    PredictionResponse.confidence r1 = PredictionResponse.confidence r2.
Proof.
  exact (conj eq_refl (conj eq_refl
           (humidity_ignored example_request example_request_dry
              example_world late_world eq_refl eq_refl eq_refl eq_refl))).
Defined.

Lemma predict_never_500_witness :
  SensorData.valid example_request = true /\
  exists r w', predict example_request example_world = (Py.Ok r, w').
Proof.
  exact (conj eq_refl
           (proj1 (proj2
              (predict_never_500 example_request example_world eq_refl)))).
Defined.

(** The handler on the example request: WARM, with 0.977 ms measured. *)
Example predict_example :
  predict example_request example_world =
  (Py.Ok (PredictionResponse.mk "WARM" 1 45.5 850 0.977),
   Py.mkWorld example_clock 2).
Proof. vm_compute. reflexivity. Qed.

End Handler.

(* ================================================================= *)
(** * Further theory: the order of floats *)

Section FloatOrder.

Import PyFloat.

Lemma gt_int_reflect (x : float) (n : Z) :
  eq_Z (float_value (float_of_int n)) n ->
  reflect (gt_Z (float_value x) n) (gt_int x n).
Proof.
  intros H. apply iff_reflect. symmetry. now apply gt_int_true_iff.
Qed.

(** What is not above [k] is at most [k], or is no number at all. *)
Lemma not_gt_Z_inv (v : xreal) (k : Z) :
  ~ gt_Z v k -> le_Z v k \/ v = XNaN.
Proof.
  destruct v as [ | | | q]; simpl; intros H.
  - now right.
  - now left.
  - tauto.
  - left. now apply Qnot_lt_le.
Qed.

Lemma gt_Z_not_nan (k : Z) : ~ gt_Z XNaN k.
Proof. simpl. tauto. Qed.

Lemma leb_xcompare (x y : float) :
  (x <=? y)%float = true <->
  xcompare (float_value x) (float_value y) = Some Lt \/
  xcompare (float_value x) (float_value y) = Some Eq.
Proof.
  unfold float_value. rewrite FloatAxioms.leb_spec. unfold SFleb.
  rewrite SFcompare_value by apply Prim2SF_valid.
  destruct (xcompare _ _) as [[ | | ] | ]; split;
    intros H; try reflexivity; try discriminate; try tauto;
    destruct H; discriminate.
Qed.

Lemma xcompare_lt_le_trans (u v w : xreal) :
  xcompare u v = Some Lt ->
  xcompare v w = Some Lt \/ xcompare v w = Some Eq ->
  xcompare u w = Some Lt.
Proof.
  destruct u as [ | | | a], v as [ | | | b], w as [ | | | c]; simpl;
    intros H1 [H2 | H2]; try discriminate; try reflexivity.
  - f_equal. apply Qlt_alt.
    injection H1 as H1. injection H2 as H2.
    apply Qlt_alt in H1. apply Qlt_alt in H2.
    now apply Qlt_trans with b.
  - f_equal. apply Qlt_alt.
    injection H1 as H1. injection H2 as H2.
    apply Qlt_alt in H1. apply Qeq_alt in H2.
    now rewrite <- H2.
Qed.

(** Python's [<=] on floats carries [> n] upwards. *)
Lemma gt_int_mono (x y : float) (n : Z) :
  (x <=? y)%float = true -> gt_int x n = true -> gt_int y n = true.
Proof.
  intros Hle H. apply gt_int_xcompare in H. apply gt_int_xcompare.
  apply leb_xcompare in Hle.
  now apply xcompare_lt_le_trans with (float_value x).
Qed.

Lemma leb_0_value (c : float) :
  (0 <=? c)%float = true <->
  xcompare (XFin 0) (float_value c) = Some Lt \/
  xcompare (XFin 0) (float_value c) = Some Eq.
Proof. apply (leb_xcompare 0 c). Qed.

Lemma value_1_Q :
  exists q, float_value 1 = XFin q /\ (q == 1)%Q.
Proof. eexists. split; [vm_compute; reflexivity | reflexivity]. Qed.

(** The two tests of [Field(ge=0.0, le=1.0)] hold exactly of the floats
    that stand for a number from 0 to 1. *)
Lemma confidence_ok_iff (c : float) :
  PredictionResponse.confidence_ok c = true <->
  in_unit_interval (float_value c).
Proof.
  unfold PredictionResponse.confidence_ok.
  rewrite andb_true_iff, leb_0_value, (leb_xcompare c 1).
  destruct value_1_Q as (q1 & E1 & Hq1). rewrite E1.
  destruct (float_value c) as [ | | | q]; simpl.
  - split; [intros [[H | H] _]; discriminate | tauto].
  - split; [intros [[H | H] _]; discriminate | tauto].
  - split; [intros [_ [H | H]]; discriminate | tauto].
  - rewrite (Qcompare_comp q q (Qeq_refl q) q1 1%Q Hq1).
    rewrite !Qle_alt. split.
    + intros [[H | H] [H' | H']]; injection H as H; injection H' as H';
        rewrite H, H'; split; discriminate.
    + intros [H H'].
      destruct (0 ?= q)%Q eqn:E0; destruct (q ?= 1)%Q eqn:E1';
        try (now elim H); try (now elim H'); tauto.
Qed.

Lemma label_ok_iff (l : string) :
  PredictionResponse.label_ok l = true <->
  In l PredictionResponse.labels.
Proof.
  unfold PredictionResponse.label_ok. rewrite existsb_exists. split.
  - intros (x & Hx & E). apply String.eqb_eq in E. now subst.
  - intros H. exists l. split; [assumption | apply String.eqb_refl].
Qed.

End FloatOrder.

(* ================================================================= *)
(** * Further properties of the classifier *)

Section ClassifierRegions.

Import PyFloat.

(** X1. The label is HOT exactly when the temperature is above 50 or the
    CO2 level is above 1000: no other input, a NaN temperature included,
    is classified HOT. *)
Theorem hot_iff (temperature : float) (co2_level : Z) :
  fst (classify_sensor_data temperature co2_level) = "HOT"%string <->
  gt_Z (float_value temperature) 50 \/ 1000 < co2_level.
Proof.
  unfold classify_sensor_data.
  destruct (gt_int_reflect temperature 50 value_50) as [G | G];
    destruct (Z.ltb_spec 1000 co2_level) as [C | C]; simpl;
    try tauto.
  destruct (gt_int temperature 35); simpl;
    (split; [discriminate | intros [H | H]; [tauto | lia]]).
Qed.

(** X2. The label is WARM exactly when the temperature is above 35 and
    at most 50 and the CO2 level is at most 1000. *)
Theorem warm_iff (temperature : float) (co2_level : Z) :
  fst (classify_sensor_data temperature co2_level) = "WARM"%string <->
  gt_Z (float_value temperature) 35 /\
  le_Z (float_value temperature) 50 /\
  co2_level <= 1000.
Proof.
  unfold classify_sensor_data.
  destruct (gt_int_reflect temperature 50 value_50) as [G | G];
    destruct (Z.ltb_spec 1000 co2_level) as [C | C]; simpl.
  - split; [discriminate | intros (_ & _ & H); lia].
  - split; [discriminate | intros (_ & H & _)].
    now elim (le_Z_not_gt_Z _ _ H).
  - split; [discriminate | intros (_ & _ & H); lia].
  - destruct (gt_int_reflect temperature 35 value_35) as [W | W]; simpl.
    + split; [intros _ | reflexivity].
      repeat split; try assumption.
      destruct (not_gt_Z_inv _ _ G) as [L | N]; [assumption | ].
      rewrite N in W. now elim (gt_Z_not_nan 35).
    + split; [discriminate | tauto].
Qed.

(** X3. The label is COLD exactly when the CO2 level is at most 1000 and
    the temperature is at most 35 or is a NaN: a reading that is not a
    number counts as normal conditions. *)
Theorem cold_iff (temperature : float) (co2_level : Z) :
  fst (classify_sensor_data temperature co2_level) = "COLD"%string <->
  (le_Z (float_value temperature) 35 \/ float_value temperature = XNaN) /\
  co2_level <= 1000.
Proof.
  unfold classify_sensor_data.
  destruct (gt_int_reflect temperature 50 value_50) as [G | G];
    destruct (Z.ltb_spec 1000 co2_level) as [C | C]; simpl.
  - split; [discriminate | intros (_ & H); lia].
  - split; [discriminate | intros ([L | N] & _)].
    + apply (gt_Z_mono _ 35 50) in G; [ | lia].
      now elim (le_Z_not_gt_Z _ _ L).
    + rewrite N in G. now elim (gt_Z_not_nan 50).
  - split; [discriminate | intros (_ & H); lia].
  - destruct (gt_int_reflect temperature 35 value_35) as [W | W]; simpl.
    + split; [discriminate | intros ([L | N] & _)].
      * now elim (le_Z_not_gt_Z _ _ L).
      * rewrite N in W. now elim (gt_Z_not_nan 35).
    + split; [intros _ | reflexivity].
      split; [now apply not_gt_Z_inv | assumption].
Qed.

Lemma severity_classify (t : float) (c : Z) :
  severity (fst (classify_sensor_data t c)) =
  if gt_int t 50 || (1000 <? c) then 2
  else if gt_int t 35 then 1 else 0.
Proof.
  unfold classify_sensor_data.
  destruct (gt_int t 50 || (1000 <? c)); [reflexivity | ].
  destruct (gt_int t 35); reflexivity.
Qed.

(** X4. The alarm level never goes down when the temperature and the
    CO2 level go up: for [t1 <= t2] (Python's order on floats) and
    [c1 <= c2], the label at [(t2, c2)] is at least as severe as the one
    at [(t1, c1)]. *)
Theorem classify_monotone (t1 t2 : float) (c1 c2 : Z) :
  (t1 <=? t2)%float = true ->
  c1 <= c2 ->
  severity (fst (classify_sensor_data t1 c1))
  <= severity (fst (classify_sensor_data t2 c2)).
Proof.
  intros Ht Hc. rewrite !severity_classify.
  pose proof (gt_int_mono t1 t2 50 Ht) as M50.
  pose proof (gt_int_mono t1 t2 35 Ht) as M35.
  destruct (Z.ltb_spec 1000 c1) as [C1 | C1];
    destruct (Z.ltb_spec 1000 c2) as [C2 | C2]; try lia;
    destruct (gt_int t1 50); try (rewrite (M50 eq_refl)); simpl;
    try lia;
    destruct (gt_int t2 50); simpl; try lia;
    destruct (gt_int t1 35); try (rewrite (M35 eq_refl)); simpl;
    try lia;
    destruct (gt_int t2 35); lia.
Qed.

Lemma classify_monotone_witness :
  (35.5 <=? 60)%float = true /\ 400 <= 400 /\
  severity (fst (classify_sensor_data 35.5 400))
  <= severity (fst (classify_sensor_data 60 400)).
Proof.
  assert (H1 : (35.5 <=? 60)%float = true) by reflexivity.
  assert (H2 : 400 <= 400) by lia.
  exact (conj H1 (conj H2 (classify_monotone 35.5 60 400 400 H1 H2))).
Defined.

End ClassifierRegions.

(* ================================================================= *)
(** * Further properties of the response model and of the handler *)

Section HandlerEffects.

Import PyFloat.

(** X5. The constructor of [PredictionResponse] accepts its arguments
    exactly when the label is one of HOT, WARM, COLD and the confidence
    stands for a number from 0 to 1; otherwise, and so for a NaN
    confidence, it raises a [ValidationError]. *)
Theorem response_validation (l : string) (c temp : float) (co2 : Z)
  (ms : float) :
  (PredictionResponse.new l c temp co2 ms
   = Py.Ok (PredictionResponse.mk l c temp co2 ms)
   <-> In l PredictionResponse.labels /\
       in_unit_interval (float_value c)) /\
  ((exists msg, PredictionResponse.new l c temp co2 ms
                = Py.Raise (Py.ValidationError msg))
   <-> ~ (In l PredictionResponse.labels /\
          in_unit_interval (float_value c))).
Proof.
  rewrite <- label_ok_iff, <- confidence_ok_iff.
  unfold PredictionResponse.new, PredictionResponse.errors.
  destruct (PredictionResponse.label_ok l),
           (PredictionResponse.confidence_ok c); simpl;
    (split; split; intros H;
     solve [ reflexivity
           | discriminate H
           | tauto
           | destruct H as [msg H]; discriminate H
           | destruct H as [H1 H2]; discriminate
           | elim H; tauto
           | eexists; reflexivity
           | intros [H1 H2]; discriminate ]).
Qed.

(** One run of the handler, step by step: two readings of the clock,
    and the outcome of [round] decides between the response and the
    [except] branch. *)
Lemma predict_run (sd : SensorData.t) (w : Py.World) :
  predict sd w =
  let n := Py.perf_reads w in
  let elapsed :=
    ((Py.perf_clock w (S n) - Py.perf_clock w n) * 1000)%float in
  let w' := Py.mkWorld (Py.perf_clock w) (S (S n)) in
  match PyRound.float_round elapsed 3 with
  | Py.Ok r =>
      (Py.Ok (PredictionResponse.mk
                (fst (classify_sensor_data (SensorData.temperature sd)
                                           (SensorData.co2_level sd)))
                (snd (classify_sensor_data (SensorData.temperature sd)
                                           (SensorData.co2_level sd)))
                (SensorData.temperature sd) (SensorData.co2_level sd) r),
       w')
  | Py.Raise e =>
      (Py.Raise (mkHTTPException 500
                   ("Classification error: " ++ Py.str e)%string), w')
  end.
Proof.
  unfold predict, predict_body, Py.bind, Py.try_except, Py.perf_counter,
    Py.lift, Py.raise.
  pose proof (response_new_classified (SensorData.temperature sd)
                (SensorData.co2_level sd)) as N.
  destruct (classify_sensor_data _ _) as [l c]. simpl fst in *.
  simpl snd in *. cbv zeta. simpl Py.perf_clock. simpl Py.perf_reads.
  destruct (PyRound.float_round _ 3) as [r | e]; [ | reflexivity].
  now rewrite N.
Qed.

(** X6. The handler reads the clock exactly twice and leaves the clock
    itself as it was; the processing time of the response is the
    difference of the two readings, times 1000, rounded to 3 digits. *)
Theorem predict_clock (sd : SensorData.t) (w : Py.World) :
  exists r,
    predict sd w =
    (Py.Ok r, Py.mkWorld (Py.perf_clock w) (2 + Py.perf_reads w)) /\
    PyRound.float_round
      ((Py.perf_clock w (S (Py.perf_reads w))
        - Py.perf_clock w (Py.perf_reads w)) * 1000)%float 3
    = Py.Ok (PredictionResponse.processing_time_ms r).
Proof.
  rewrite predict_run. cbv zeta.
  destruct (float_round_3_ok
              ((Py.perf_clock w (S (Py.perf_reads w))
                - Py.perf_clock w (Py.perf_reads w)) * 1000)%float)
    as [r Hr].
  rewrite Hr. eexists. split; reflexivity.
Qed.

(** A number minus itself is [+0.0]. *)
Lemma float_sub_diag (x : float) :
  is_finite x -> (x - x)%float = zero.
Proof.
  intros [q Hq]. apply Prim2SF_inj. rewrite FloatAxioms.sub_spec.
  unfold float_value in Hq.
  destruct (Prim2SF x) as [s | s | | s m e].
  - destruct s; reflexivity.
  - destruct s; discriminate.
  - discriminate.
  - unfold SF64sub, SFsub. rewrite Z.sub_diag. reflexivity.
Qed.

(** X7. When the clock has not moved between the two readings, and
    reads a number, the processing time of the response is [0.0]. *)
Theorem predict_zero_elapsed (sd : SensorData.t) (w : Py.World) :
  is_finite (Py.perf_clock w (Py.perf_reads w)) ->
  Py.perf_clock w (S (Py.perf_reads w))
  = Py.perf_clock w (Py.perf_reads w) ->
  exists r w',
    predict sd w = (Py.Ok r, w') /\
    PredictionResponse.processing_time_ms r = zero.
Proof.
  intros F E. rewrite predict_run. cbv zeta.
  rewrite E, (float_sub_diag _ F).
  change (PyRound.float_round (zero * 1000)%float 3) with
    (@Py.Ok Py.exn float zero).
  do 2 eexists. split; reflexivity.
Qed.

Lemma predict_zero_elapsed_witness :
  is_finite (Py.perf_clock still_world (Py.perf_reads still_world)) /\
  exists r w',
    predict example_request still_world = (Py.Ok r, w') /\
    PredictionResponse.processing_time_ms r = zero.
Proof.
  assert (F : is_finite
                (Py.perf_clock still_world (Py.perf_reads still_world)))
    by (eexists; vm_compute; reflexivity).
  exact (conj F (predict_zero_elapsed example_request still_world
                   F eq_refl)).
Defined.

End HandlerEffects.
